(** * The remote ancient store of core-geth: server facade and RPC client

    Shallow embedding of [core/rawdb/freezer_remote_api.go] (the server
    facade [FreezerRemoteAPI]) and [core/rawdb/freezer_remote_client.go]
    (the RPC client [FreezerRemoteClient]).

    Both files are thin adapters around two collaborators: the ancient
    store engine behind the facade and the RPC transport behind the client.
    A method of either file is therefore embedded as a small program over
    the calls it makes to its collaborator; running a program against a
    handler (a state machine answering those calls) gives its result, and
    running it against a logging handler also gives the sequence of calls
    it made. *)

From Stdlib Require Import List String Ascii NArith Bool Lia.
From Stdlib.Strings Require Import Byte.
Import ListNotations.

Local Open Scope N_scope.
Local Open Scope string_scope.
Local Open Scope list_scope.

(** ** Go values *)

(** [uint64] arguments are only passed through by the two files, never
    computed with. *)
Definition uint64 := N.

(** A [[]byte]; the nil slice is the empty sequence. *)
Definition bytes := list byte.

(** The failures named by the protocol. *)
Inductive Err : Type :=
| MalformedEnvelope
| NotFound
| OutOfOrderAppend
| InvalidTruncateTarget
| TransportError (msg : string)
| EngineError (msg : string).

(** Go's [error] interface value; [nil] is [None]. *)
Definition error := option Err.

(** ** The binary envelope codec *)

Module hex.

Definition hextable : string := "0123456789abcdef".

Definition digit (n : N) : ascii :=
  match String.get (N.to_nat n) hextable with
  | Some c => c
  | None => "0"%char
  end.

Definition uint8 (n : N) : byte :=
  match Byte.of_N (n mod 256) with
  | Some b => b
  | None => x00
  end.

(** Modelled from the spec: Go's [encoding/hex.Encode], missing from the
    sources; two lower-case hexadecimal digits per byte, high nibble
    first ([hextable[v>>4]], [hextable[v&0x0f]]). *)
Fixpoint Encode (src : bytes) : string :=
  match src with
  | [] => EmptyString
  | v :: rest =>
      String (digit (N.shiftr (Byte.to_N v) 4))
        (String (digit (N.land (Byte.to_N v) 15)) (Encode rest))
  end.

Definition between (lo c hi : ascii) : bool :=
  N.leb (N_of_ascii lo) (N_of_ascii c) && N.leb (N_of_ascii c) (N_of_ascii hi).

(** Modelled from the spec: Go's [encoding/hex.fromHexChar], missing from
    the sources; the value of one hexadecimal digit of either case. *)
Definition fromHexChar (c : ascii) : option N :=
  if between "0" c "9" then Some (N_of_ascii c - N_of_ascii "0")
  else if between "a" c "f" then Some (N_of_ascii c - N_of_ascii "a" + 10)
  else if between "A" c "F" then Some (N_of_ascii c - N_of_ascii "A" + 10)
  else None.

(** Modelled from the spec: Go's [encoding/hex.DecodeString], missing from
    the sources.  Digits are consumed in pairs; an invalid digit or a
    dangling last digit is a malformed envelope, and the bytes decoded
    before the error are returned with it. *)
Fixpoint DecodeString (s : string) : bytes * error :=
  match s with
  | EmptyString => ([], None)
  | String p EmptyString => ([], Some MalformedEnvelope)
  | String p (String q rest) =>
      match fromHexChar p with
      | None => ([], Some MalformedEnvelope)
      | Some a =>
          match fromHexChar q with
          | None => ([], Some MalformedEnvelope)
          | Some b =>
              let '(out, err) := DecodeString rest in
              (uint8 (N.lor (N.shiftl a 4) b) :: out, err)
          end
      end
  end.

End hex.

Module hexutil.

(** Modelled from the spec: [hexutil.has0xPrefix] of [common/hexutil],
    missing from the sources. *)
Definition has0xPrefix (input : string) : bool :=
  match input with
  | String c0 (String c1 _) =>
      Ascii.eqb c0 "0" && (Ascii.eqb c1 "x" || Ascii.eqb c1 "X")
  | _ => false
  end.

(** Modelled from the spec: [hexutil.Encode] of [common/hexutil], missing
    from the sources; "every binary argument/result crossing the boundary
    is represented as a 0x-prefixed hexadecimal string; the empty blob is
    represented as the literal string 0x". *)
Definition Encode (b : bytes) : string :=
  String "0" (String "x" (hex.Encode b)).

(** Modelled from the spec: [hexutil.Decode] of [common/hexutil], missing
    from the sources; "decoding a malformed text value fails with a
    MalformedEnvelope error".  The empty string and a string without the
    0x prefix decode to no bytes and the error; the digits after the
    prefix are decoded by [hex.DecodeString]. *)
Definition Decode (input : string) : bytes * error :=
  match input with
  | EmptyString => ([], Some MalformedEnvelope)
  | _ =>
      if negb (has0xPrefix input) then ([], Some MalformedEnvelope)
      else
        match input with
        | String _ (String _ digits) => hex.DecodeString digits
        | _ => ([], Some MalformedEnvelope)
        end
  end.

End hexutil.

(** ** Programs over a collaborator *)

Section Programs.

Context {call : Type} (reply : call -> Type).

(** A method body: it returns, or it calls the collaborator and goes on
    with the answer. *)
Inductive prog (R : Type) : Type :=
| Return (r : R)
| Invoke (c : call) (k : reply c -> prog R).

Arguments Return {R} r.
Arguments Invoke {R} c k.

Fixpoint bind {A B : Type} (p : prog A) (f : A -> prog B) : prog B :=
  match p with
  | Return a => f a
  | Invoke c k => Invoke c (fun x => bind (k x) f)
  end.

Definition invoke (c : call) : prog (reply c) := Invoke c Return.

(** A collaborator: a state machine that answers every call. *)
Definition handler (S : Type) : Type := forall c : call, S -> reply c * S.

Fixpoint run {S R : Type} (h : handler S) (p : prog R) (s : S) : R * S :=
  match p with
  | Return r => (r, s)
  | Invoke c k => let '(x, s') := h c s in run h (k x) s'
  end.

(** One call together with the answer it got. *)
Definition entry : Type := {c : call & reply c}.

(** The same collaborator, keeping the list of the calls it answered. *)
Definition logging {S : Type} (h : handler S) : handler (S * list entry) :=
  fun c '(s, log) =>
    let '(x, s') := h c s in (x, (s', log ++ [existT reply c x])).

(** The calls a program makes when run from [s], oldest first. *)
Definition calls {S R : Type} (h : handler S) (p : prog R) (s : S)
  : list entry :=
  snd (snd (run (logging h) p (s, []))).

End Programs.

Arguments Return {call reply R} r.
Arguments Invoke {call reply R} c k.
Arguments bind {call reply A B} p f.
Arguments invoke {call reply} c.
Arguments run {call reply S R} h p s.
Arguments logging {call reply S} h c _.
Arguments calls {call reply S R} h p s.

Notation "x <- p ;; q" := (bind p (fun x => q))
  (at level 61, p at next level, right associativity).
Notation "' pat <- p ;; q" := (bind p (fun x => match x with pat => q end))
  (at level 61, pat pattern, p at next level, right associativity).

(** ** The ancient store engine, as the facade sees it *)

(** The methods of [*freezerRemote] that the facade calls. *)
Inductive engineCall : Type :=
| freezer_Close
| freezer_HasAncient (kind : string) (number : uint64)
| freezer_Ancient (kind : string) (number : uint64)
| freezer_Ancients
| freezer_AncientSize (kind : string)
| freezer_AppendAncient (number : uint64) (hash header body receipts td : bytes)
| freezer_TruncateAncients (items : uint64)
| freezer_Sync.

(** Their Go result types. *)
Definition engineReply (c : engineCall) : Type :=
  match c with
  | freezer_Close => error
  | freezer_HasAncient _ _ => (bool * error)%type
  | freezer_Ancient _ _ => (bytes * error)%type
  | freezer_Ancients => (uint64 * error)%type
  | freezer_AncientSize _ => (uint64 * error)%type
  | freezer_AppendAncient _ _ _ _ _ _ => error
  | freezer_TruncateAncients _ => error
  | freezer_Sync => error
  end.

(** The error an engine call answered with. *)
Definition engineError (e : entry engineReply) : error :=
  match e with
  | existT _ c x =>
      match c return engineReply c -> error with
      | freezer_Close => fun err => err
      | freezer_HasAncient _ _ => fun r => snd r
      | freezer_Ancient _ _ => fun r => snd r
      | freezer_Ancients => fun r => snd r
      | freezer_AncientSize _ => fun r => snd r
      | freezer_AppendAncient _ _ _ _ _ _ => fun err => err
      | freezer_TruncateAncients _ => fun err => err
      | freezer_Sync => fun err => err
      end x
  end.

(** ** The server facade: [freezer_remote_api.go] *)

Module FreezerRemoteAPI.

Definition facade (R : Type) : Type := prog engineReply R.

Definition pingVersion : facade string :=
  Return "version 1".

(** Close terminates the chain freezer, unmapping all the data files. *)
Definition Close : facade error :=
  invoke freezer_Close.

(** HasAncient returns an indicator whether the specified ancient data
    exists in the freezer. *)
Definition HasAncient (kind : string) (number : uint64)
  : facade (bool * error) :=
  invoke (freezer_HasAncient kind number).

(** Ancient retrieves an ancient binary blob from the append-only
    immutable files. *)
Definition Ancient (kind : string) (number : uint64)
  : facade (string * error) :=
  '(ancient, err) <- invoke (freezer_Ancient kind number) ;;
  match err with
  | Some _ => Return ("0x", err)
  | None => Return (hexutil.Encode ancient, err)
  end.

(** Ancients returns the length of the frozen items. *)
Definition Ancients : facade (uint64 * error) :=
  '(numAncients, err) <- invoke freezer_Ancients ;;
  match err with
  | Some _ => Return (0, err)
  | None => Return (numAncients, err)
  end.

(** AncientSize returns the ancient size of the specified category. *)
Definition AncientSize (kind : string) : facade (uint64 * error) :=
  '(size, err) <- invoke (freezer_AncientSize kind) ;;
  match err with
  | Some _ => Return (0, err)
  | None => Return (size, err)
  end.

(** AppendAncient injects all binary blobs belong to block at the end of
    the append-only immutable table files.  The first four decodings are
    each followed by an error check; the error of the fifth, [td], is
    overwritten by the engine's answer. *)
Definition AppendAncient (number : uint64)
    (hash header body receipts td : string) : facade error :=
  let '(bHash, err) := hexutil.Decode hash in
  match err with
  | Some _ => Return err
  | None =>
  let '(bHeader, err) := hexutil.Decode header in
  match err with
  | Some _ => Return err
  | None =>
  let '(bBody, err) := hexutil.Decode body in
  match err with
  | Some _ => Return err
  | None =>
  let '(bReceipts, err) := hexutil.Decode receipts in
  match err with
  | Some _ => Return err
  | None =>
  let '(bTd, err) := hexutil.Decode td in
  invoke (freezer_AppendAncient number bHash bHeader bBody bReceipts bTd)
  end end end end.

(** Truncate discards any recent data above the provided threshold
    number. *)
Definition TruncateAncients (items : uint64) : facade error :=
  invoke (freezer_TruncateAncients items).

(** sync flushes all data tables to disk. *)
Definition Sync : facade error :=
  invoke freezer_Sync.

(** repair truncates all data tables to the same length; its body is
    commented out and only [return nil] is left. *)
Definition repair : facade error :=
  Return None.

End FreezerRemoteAPI.

(** ** The RPC transport, as the client sees it *)

(** A [*rpc.Client]. *)
Definition rpcClient := N.

(** An argument handed to [Call]. *)
Inductive rpcArg : Type :=
| ArgString (s : string)
| ArgUint64 (n : uint64).

(** The [result] pointer handed to [Call]: [nil], or the address of a
    fresh [bool], [string] or [uint64] variable. *)
Inductive rpcResult : Type :=
| ResNil
| ResBool
| ResString
| ResUint64.

(** What the variable behind the pointer holds once [Call] is back. *)
Definition resultOf (t : rpcResult) : Type :=
  match t with
  | ResNil => unit
  | ResBool => bool
  | ResString => string
  | ResUint64 => uint64
  end.

(** Go's zero value of the variable. *)
Definition zero (t : rpcResult) : resultOf t :=
  match t with
  | ResNil => tt
  | ResBool => false
  | ResString => EmptyString
  | ResUint64 => 0
  end.

(** The operations of package [rpc]: [rpc.Dial], [Client.Call] and
    [Client.Close].  The client file uses the first two only. *)
Inductive rpcCall : Type :=
| rpc_Dial (endpoint : string)
| rpc_Call (client : rpcClient) (result : rpcResult) (method : string)
    (args : list rpcArg)
| rpc_Close (client : rpcClient).

Definition rpcReply (c : rpcCall) : Type :=
  match c with
  | rpc_Dial _ => (rpcClient * error)%type
  | rpc_Call _ t _ _ => (resultOf t * error)%type
  | rpc_Close _ => unit
  end.

Definition isCall (e : entry rpcReply) : bool :=
  match projT1 e with
  | rpc_Call _ _ _ _ => true
  | _ => false
  end.

Definition isTransportClose (e : entry rpcReply) : bool :=
  match projT1 e with
  | rpc_Close _ => true
  | _ => false
  end.

(** ** The remote client: [freezer_remote_client.go] *)

Module FreezerRemoteClient.

(** The struct; its [quit] channel is never made nor used. *)
Record t : Type := mk { client : rpcClient; status : string }.

(** The assignment [api.status = s]. *)
Definition set_status (api : t) (s : string) : t :=
  {| client := api.(client); status := s |}.

Definition remote (R : Type) : Type := prog rpcReply R.

Definition pingVersion (api : t) : remote (string * error) :=
  Return ("version 1", None).

(** [fmt.Sprintf] at the format [ok [version=%v]] and a string. *)
Definition Sprintf_status (version : string) : string :=
  "ok [version=" ++ version ++ "]".

(** newFreezerRemoteClient constructs a rpc client to connect to a remote
    freezer. *)
Definition newFreezerRemoteClient (endpoint : string) (ipc : bool)
  : remote (option t * error) :=
  '(client, err) <- invoke (rpc_Dial endpoint) ;;
  match err with
  | Some _ => Return (None, err)
  | None =>
      let extfreezer := {| client := client; status := EmptyString |} in
      (* Check if reachable *)
      '(version, err) <- pingVersion extfreezer ;;
      match err with
      | Some _ => Return (None, err)
      | None =>
          let extfreezer := set_status extfreezer (Sprintf_status version) in
          Return (Some extfreezer, None)
      end
  end.

(** Close terminates the chain freezer, unmapping all the data files. *)
Definition Close (api : t) : remote error :=
  '(_, err) <- invoke (rpc_Call api.(client) ResNil "freezer_close" []) ;;
  Return err.

(** HasAncient returns an indicator whether the specified ancient data
    exists in the freezer. *)
Definition HasAncient (api : t) (kind : string) (number : uint64)
  : remote (bool * error) :=
  '(res, err) <- invoke (rpc_Call api.(client) ResBool "freezer_hasAncient"
                           [ArgString kind; ArgUint64 number]) ;;
  Return (res, err).

(** Ancient retrieves an ancient binary blob from the append-only
    immutable files. *)
Definition Ancient (api : t) (kind : string) (number : uint64)
  : remote (bytes * error) :=
  '(res, err) <- invoke (rpc_Call api.(client) ResString "freezer_ancient"
                           [ArgString kind; ArgUint64 number]) ;;
  match err with
  | Some _ => Return ([], err)
  | None => Return (hexutil.Decode res)
  end.

(** Ancients returns the length of the frozen items. *)
Definition Ancients (api : t) : remote (uint64 * error) :=
  '(res, err) <- invoke (rpc_Call api.(client) ResUint64 "freezer_ancients"
                           []) ;;
  Return (res, err).

(** AncientSize returns the ancient size of the specified category. *)
Definition AncientSize (api : t) (kind : string) : remote (uint64 * error) :=
  '(res, err) <- invoke (rpc_Call api.(client) ResUint64
                           "freezer_ancientSize" [ArgString kind]) ;;
  Return (res, err).

(** AppendAncient injects all binary blobs belong to block at the end of
    the append-only immutable table files. *)
Definition AppendAncient (api : t) (number : uint64)
    (hash header body receipts td : bytes) : remote error :=
  let hexHash := hexutil.Encode hash in
  let hexHeader := hexutil.Encode header in
  let hexBody := hexutil.Encode body in
  let hexReceipts := hexutil.Encode receipts in
  let hexTd := hexutil.Encode td in
  '(_, err) <- invoke (rpc_Call api.(client) ResNil "freezer_appendAncient"
                         [ArgUint64 number; ArgString hexHash;
                          ArgString hexHeader; ArgString hexBody;
                          ArgString hexReceipts; ArgString hexTd]) ;;
  Return err.

(** TruncateAncients discards any recent data above the provided
    threshold number. *)
Definition TruncateAncients (api : t) (items : uint64) : remote error :=
  '(_, err) <- invoke (rpc_Call api.(client) ResNil
                         "freezer_truncateAncients" [ArgUint64 items]) ;;
  Return err.

(** Sync flushes all data tables to disk. *)
Definition Sync (api : t) : remote error :=
  '(_, err) <- invoke (rpc_Call api.(client) ResNil "freezer_sync" []) ;;
  Return err.

End FreezerRemoteClient.

(** ** A reference engine *)

Module Engine.

(** Modelled from the spec: the ancient store behind [*freezerRemote],
    missing from the sources; it "holds, per category, an ordered sequence
    of binary blobs" and "tracks a frozen counter", and it is "created on
    service start and destroyed on Close": [closed] tells whether [Close]
    has been called on it. *)
Record AncientStore : Type := mkAncientStore {
  frozen : uint64;
  t_hash : list bytes;
  t_header : list bytes;
  t_body : list bytes;
  t_receipts : list bytes;
  t_td : list bytes;
  closed : bool
}.

(** A store that has not been closed. *)
Definition mkStore (frozen : uint64)
    (hash header body receipts td : list bytes) : AncientStore :=
  mkAncientStore frozen hash header body receipts td false.

Definition empty : AncientStore := mkStore 0 [] [] [] [] [].

(** Modelled from the spec: the categories [hash], [header], [body],
    [receipts] and [td] of the missing store. *)
Definition table (s : AncientStore) (kind : string) : option (list bytes) :=
  if String.eqb kind "hash" then Some s.(t_hash)
  else if String.eqb kind "header" then Some s.(t_header)
  else if String.eqb kind "body" then Some s.(t_body)
  else if String.eqb kind "receipts" then Some s.(t_receipts)
  else if String.eqb kind "td" then Some s.(t_td)
  else None.

(** Modelled from the spec: [HasAncient] of the missing engine; "true iff
    number < frozen for that category". *)
Definition HasAncient (kind : string) (number : uint64) (s : AncientStore)
  : bool * error :=
  match table s kind with
  | Some _ => (N.ltb number s.(frozen), None)
  | None => (false, None)
  end.

(** Modelled from the spec: [Ancient] of the missing engine; "fails
    NotFound if number >= frozen". *)
Definition Ancient (kind : string) (number : uint64) (s : AncientStore)
  : bytes * error :=
  if N.leb s.(frozen) number then ([], Some NotFound)
  else
    match table s kind with
    | Some blobs =>
        match nth_error blobs (N.to_nat number) with
        | Some blob => (blob, None)
        | None => ([], Some NotFound)
        end
    | None => ([], Some NotFound)
    end.

(** Modelled from the spec: [Ancients] of the missing engine; the "current
    contiguous count, all categories". *)
Definition Ancients (s : AncientStore) : uint64 * error :=
  (s.(frozen), None).

(** Modelled from the spec: [AncientSize] of the missing engine; the
    "cumulative stored size for category". *)
Definition AncientSize (kind : string) (s : AncientStore) : uint64 * error :=
  match table s kind with
  | Some blobs =>
      (fold_right (fun blob n => N.of_nat (List.length blob) + n) 0 blobs, None)
  | None => (0, None)
  end.

(** Modelled from the spec: [AppendAncient] of the missing engine;
    "appending number frozen succeeds and increments frozen by exactly 1;
    appending any other number fails with OutOfOrderAppend and leaves
    frozen unchanged". *)
Definition AppendAncient (number : uint64)
    (hash header body receipts td : bytes) (s : AncientStore)
  : error * AncientStore :=
  if N.eqb number s.(frozen) then
    (None,
     mkAncientStore (s.(frozen) + 1)
       (s.(t_hash) ++ [hash]) (s.(t_header) ++ [header])
       (s.(t_body) ++ [body]) (s.(t_receipts) ++ [receipts])
       (s.(t_td) ++ [td]) s.(closed))
  else (Some OutOfOrderAppend, s).

(** Modelled from the spec: [TruncateAncients] of the missing engine;
    "fails with InvalidTruncateTarget if target > frozen; otherwise removes
    all categories' records with number >= target and sets frozen =
    target". *)
Definition TruncateAncients (items : uint64) (s : AncientStore)
  : error * AncientStore :=
  if N.ltb s.(frozen) items then (Some InvalidTruncateTarget, s)
  else
    let keep := firstn (N.to_nat items) in
    (None,
     mkAncientStore items (keep s.(t_hash)) (keep s.(t_header))
       (keep s.(t_body)) (keep s.(t_receipts)) (keep s.(t_td)) s.(closed)).

(** Modelled from the spec: [Close] of the missing engine; it "releases
    all resources; idempotent", and the store is "destroyed on Close".  The
    store is marked closed and its records are left as they are; closing a
    closed store changes nothing.  The spec states no behaviour of the
    other operations on a closed store, and they do not look at the
    mark. *)
Definition Close (s : AncientStore) : error * AncientStore :=
  (None,
   mkAncientStore s.(frozen) s.(t_hash) s.(t_header) s.(t_body)
     s.(t_receipts) s.(t_td) true).

(** Modelled from the spec: the missing [*freezerRemote] as a collaborator
    of the facade; [Sync] keeps no state here and succeeds. *)
Definition handle : handler engineReply AncientStore :=
  fun c =>
    match c return AncientStore -> engineReply c * AncientStore with
    | freezer_Close => Close
    | freezer_HasAncient kind number => fun s => (HasAncient kind number s, s)
    | freezer_Ancient kind number => fun s => (Ancient kind number s, s)
    | freezer_Ancients => fun s => (Ancients s, s)
    | freezer_AncientSize kind => fun s => (AncientSize kind s, s)
    | freezer_AppendAncient number hash header body receipts td =>
        AppendAncient number hash header body receipts td
    | freezer_TruncateAncients items => TruncateAncients items
    | freezer_Sync => fun s => (None, s)
    end.

(** An engine that has lost its storage: every operation answers with the
    error [e]. *)
Definition broken (e : Err) : handler engineReply unit :=
  fun c =>
    match c return unit -> engineReply c * unit with
    | freezer_Close => fun s => (Some e, s)
    | freezer_HasAncient _ _ => fun s => ((false, Some e), s)
    | freezer_Ancient _ _ => fun s => (([], Some e), s)
    | freezer_Ancients => fun s => ((0, Some e), s)
    | freezer_AncientSize _ => fun s => ((0, Some e), s)
    | freezer_AppendAncient _ _ _ _ _ _ => fun s => (Some e, s)
    | freezer_TruncateAncients _ => fun s => (Some e, s)
    | freezer_Sync => fun s => (Some e, s)
    end.

End Engine.

(** ** Reference transports *)

Module Transport.

(** A JSON result on the wire. *)
Inductive wire : Type :=
| WNull
| WBool (b : bool)
| WString (s : string)
| WUint64 (n : uint64).

Definition invalidParams : wire * error :=
  (WNull, Some (TransportError "invalid params")).

(** Modelled from the spec: the dispatch of package [rpc], missing from
    the sources; each wire method of the protocol ([close], [hasAncient],
    [ancient], [ancients], [ancientSize], [appendAncient],
    [truncateAncients], [sync], under the namespace the client uses) is
    served by the facade operation of the same name. *)
Definition serve (method : string) (args : list rpcArg)
  : FreezerRemoteAPI.facade (wire * error) :=
  if String.eqb method "freezer_close" then
    match args with
    | [] => err <- FreezerRemoteAPI.Close ;; Return (WNull, err)
    | _ => Return invalidParams
    end
  else if String.eqb method "freezer_hasAncient" then
    match args with
    | [ArgString kind; ArgUint64 number] =>
        '(b, err) <- FreezerRemoteAPI.HasAncient kind number ;;
        Return (WBool b, err)
    | _ => Return invalidParams
    end
  else if String.eqb method "freezer_ancient" then
    match args with
    | [ArgString kind; ArgUint64 number] =>
        '(s, err) <- FreezerRemoteAPI.Ancient kind number ;;
        Return (WString s, err)
    | _ => Return invalidParams
    end
  else if String.eqb method "freezer_ancients" then
    match args with
    | [] => '(n, err) <- FreezerRemoteAPI.Ancients ;; Return (WUint64 n, err)
    | _ => Return invalidParams
    end
  else if String.eqb method "freezer_ancientSize" then
    match args with
    | [ArgString kind] =>
        '(n, err) <- FreezerRemoteAPI.AncientSize kind ;;
        Return (WUint64 n, err)
    | _ => Return invalidParams
    end
  else if String.eqb method "freezer_appendAncient" then
    match args with
    | [ArgUint64 number; ArgString hash; ArgString header; ArgString body;
       ArgString receipts; ArgString td] =>
        err <- FreezerRemoteAPI.AppendAncient number hash header body
                 receipts td ;;
        Return (WNull, err)
    | _ => Return invalidParams
    end
  else if String.eqb method "freezer_truncateAncients" then
    match args with
    | [ArgUint64 items] =>
        err <- FreezerRemoteAPI.TruncateAncients items ;; Return (WNull, err)
    | _ => Return invalidParams
    end
  else if String.eqb method "freezer_sync" then
    match args with
    | [] => err <- FreezerRemoteAPI.Sync ;; Return (WNull, err)
    | _ => Return invalidParams
    end
  else Return (WNull, Some (TransportError "method not found")).

(** Modelled from the spec: the result handling of [Client.Call], missing
    from the sources; a nil result pointer discards the answer, another
    one receives a value of its own type. *)
Definition unmarshal (t : rpcResult) (w : wire) : resultOf t * error :=
  let mismatch := Some (TransportError "cannot unmarshal") in
  match t return resultOf t * error with
  | ResNil => (tt, None)
  | ResBool =>
      match w with WBool b => (b, None) | _ => (false, mismatch) end
  | ResString =>
      match w with WString s => (s, None) | _ => (EmptyString, mismatch) end
  | ResUint64 =>
      match w with WUint64 n => (n, None) | _ => (0, mismatch) end
  end.

(** The client's end of a connection and the store behind the server. *)
Record link : Type := mkLink {
  connected : bool;
  store : Engine.AncientStore
}.

(** Modelled from the spec: package [rpc], missing from the sources, as a
    request/response transport without losses; "Client -> transport ->
    Server Facade -> Engine -> Server Facade (encode) -> transport ->
    Client (decode)".  A failed operation is answered with its error and
    no result. *)
Definition loopback : handler rpcReply link :=
  fun c =>
    match c return link -> rpcReply c * link with
    | rpc_Dial _ => fun l => ((0, None), mkLink true l.(store))
    | rpc_Call _ t method args => fun l =>
        if l.(connected) then
          let '((w, err), st) :=
            run Engine.handle (serve method args) l.(store) in
          (match err with
           | Some _ => (zero t, err)
           | None => unmarshal t w
           end, mkLink true st)
        else ((zero t, Some (TransportError "client is closed")), l)
    | rpc_Close _ => fun l => (tt, mkLink false l.(store))
    end.

(** An HTTP endpoint nobody listens on: dialling succeeds, since it opens
    no connection, and every request fails. *)
Definition unreachable : handler rpcReply unit :=
  fun c =>
    match c return unit -> rpcReply c * unit with
    | rpc_Dial _ => fun s => ((0, None), s)
    | rpc_Call _ t _ _ => fun s =>
        ((zero t, Some (TransportError "connection refused")), s)
    | rpc_Close _ => fun s => (tt, s)
    end.

(** A server that stops once its freezer is closed: the state tells
    whether it is still running, and a stopped server answers nothing. *)
Definition stopping : handler rpcReply bool :=
  fun c =>
    match c return bool -> rpcReply c * bool with
    | rpc_Dial _ => fun running => ((0, None), running)
    | rpc_Call _ t method _ => fun running =>
        if running then
          ((zero t, None), negb (String.eqb method "freezer_close"))
        else ((zero t, Some (TransportError "connection refused")), false)
    | rpc_Close _ => fun running => (tt, running)
    end.

(** An endpoint that cannot be dialled. *)
Definition refused : handler rpcReply unit :=
  fun c =>
    match c return unit -> rpcReply c * unit with
    | rpc_Dial _ => fun s => ((0, Some (TransportError "dial failed")), s)
    | rpc_Call _ t _ _ => fun s =>
        ((zero t, Some (TransportError "connection refused")), s)
    | rpc_Close _ => fun s => (tt, s)
    end.

End Transport.

(** ** Inputs used in the examples *)

Definition api0 : FreezerRemoteClient.t :=
  FreezerRemoteClient.mk 0 "ok [version=version 1]".

Definition link0 : Transport.link := Transport.mkLink true Engine.empty.

(** The store after the first record of the protocol's append scenario. *)
Definition store1 : Engine.AncientStore :=
  Engine.mkStore 1 [[x01]] [[x02]] [[x03]] [[x04]] [[x05]].

(** The arguments of a logged [Call]. *)
Definition transmitted (e : entry rpcReply) : list rpcArg :=
  match projT1 e with
  | rpc_Call _ _ _ args => args
  | _ => []
  end.

(** A transmitted argument is well formed when it is a number, or a text
    that carries the 0x prefix and decodes without error. *)
Definition wellFormedArg (a : rpcArg) : bool :=
  match a with
  | ArgUint64 _ => true
  | ArgString s =>
      hexutil.has0xPrefix s
      && match snd (hexutil.Decode s) with None => true | Some _ => false end
  end.

(** The error a transport call answered with; a dial answers with one too,
    a transport close with none. *)
Definition rpcError (e : entry rpcReply) : error :=
  match e with
  | existT _ c x =>
      match c return rpcReply c -> error with
      | rpc_Dial _ => fun r => snd r
      | rpc_Call _ _ _ _ => fun r => snd r
      | rpc_Close _ => fun _ => None
      end x
  end.

(** The connection and the method name of a logged [Call]. *)
Definition requested (e : entry rpcReply) : option (rpcClient * string) :=
  match projT1 e with
  | rpc_Call c _ method _ => Some (c, method)
  | _ => None
  end.

(** Modelled from the spec: package [rpc], missing from the sources, as a
    lossless request/response transport in front of the facade on any
    engine [h]; a request is dispatched by [Transport.serve], a failed
    operation is answered with its error and no result, a successful one
    with its result through [Transport.unmarshal]. *)
Definition lossless {S : Type} (h : handler engineReply S)
  : handler rpcReply S :=
  fun c =>
    match c return S -> rpcReply c * S with
    | rpc_Dial _ => fun s => ((0, None), s)
    | rpc_Call _ t method args => fun s =>
        let '((w, err), s') := run h (Transport.serve method args) s in
        (match err with
         | Some _ => (zero t, err)
         | None => Transport.unmarshal t w
         end, s')
    | rpc_Close _ => fun s => (tt, s)
    end.

(** The name of the engine method of a logged engine call. *)
Definition engineMethod (e : entry engineReply) : string :=
  match projT1 e with
  | freezer_Close => "Close"
  | freezer_HasAncient _ _ => "HasAncient"
  | freezer_Ancient _ _ => "Ancient"
  | freezer_Ancients => "Ancients"
  | freezer_AncientSize _ => "AncientSize"
  | freezer_AppendAncient _ _ _ _ _ _ => "AppendAncient"
  | freezer_TruncateAncients _ => "TruncateAncients"
  | freezer_Sync => "Sync"
  end.

(** * Properties *)

(** ** Running programs *)

Lemma run_bind {call : Type} {reply : call -> Type} {S A B : Type}
    (h : handler reply S) (p : prog reply A) (f : A -> prog reply B) (s : S) :
  run h (bind p f) s = run h (f (fst (run h p s))) (snd (run h p s)).
Proof.
  revert s. induction p as [a | c k IH]; intro s; simpl.
  - reflexivity.
  - destruct (h c s) as [x s']. apply IH.
Qed.

Lemma run_invoke {call : Type} {reply : call -> Type} {S : Type}
    (h : handler reply S) (c : call) (s : S) :
  run h (invoke c) s = h c s.
Proof.
  unfold invoke. simpl. destruct (h c s); reflexivity.
Qed.

Lemma calls_invoke {call : Type} {reply : call -> Type} {S : Type}
    (h : handler reply S) (c : call) (s : S) :
  calls h (invoke c) s = [existT reply c (fst (h c s))].
Proof.
  unfold calls, invoke. simpl. destruct (h c s); reflexivity.
Qed.

(** ** The codec *)

Lemma hex_digit_pair (v : byte) (rest : string) :
  hex.DecodeString
    (String (hex.digit (N.shiftr (Byte.to_N v) 4))
       (String (hex.digit (N.land (Byte.to_N v) 15)) rest))
  = (v :: fst (hex.DecodeString rest), snd (hex.DecodeString rest)).
Proof.
  destruct v; cbn; destruct (hex.DecodeString rest); reflexivity.
Qed.

Lemma hex_DecodeString_Encode (b : bytes) :
  hex.DecodeString (hex.Encode b) = (b, None).
Proof.
  induction b as [| v rest IH].
  - reflexivity.
  - cbn [hex.Encode]. rewrite hex_digit_pair, IH. reflexivity.
Qed.

Lemma hexutil_has0xPrefix_Encode (b : bytes) :
  hexutil.has0xPrefix (hexutil.Encode b) = true.
Proof. reflexivity. Qed.

Lemma hexutil_Decode_Encode (b : bytes) :
  hexutil.Decode (hexutil.Encode b) = (b, None).
Proof.
  unfold hexutil.Decode, hexutil.Encode. cbn.
  apply hex_DecodeString_Encode.
Qed.

Lemma wellFormedArg_Encode (b : bytes) :
  wellFormedArg (ArgString (hexutil.Encode b)) = true.
Proof.
  unfold wellFormedArg.
  rewrite hexutil_has0xPrefix_Encode, hexutil_Decode_Encode. reflexivity.
Qed.

(** C3: decoding the envelope that encodes a byte sequence gives back that
    byte sequence and no error, for every byte sequence; the empty sequence
    is encoded as the text 0x, and 0x decodes to the empty sequence. *)
Theorem Decode_Encode_roundtrip :
  (forall B : bytes, hexutil.Decode (hexutil.Encode B) = (B, None))
  /\ hexutil.Encode [] = "0x"
  /\ hexutil.Decode "0x" = ([], None).
Proof.
  split; [exact hexutil_Decode_Encode | split; reflexivity].
Qed.

Lemma hex_DecodeString_error (s : string) :
  snd (hex.DecodeString s) = None
  \/ snd (hex.DecodeString s) = Some MalformedEnvelope.
Proof.
  enough (H : (snd (hex.DecodeString s) = None
               \/ snd (hex.DecodeString s) = Some MalformedEnvelope)
              /\ forall c,
                  snd (hex.DecodeString (String c s)) = None
                  \/ snd (hex.DecodeString (String c s))
                     = Some MalformedEnvelope) by apply H.
  induction s as [| q rest [IH0 IH1]].
  - split; [left; reflexivity | intro c; right; reflexivity].
  - split; [apply IH1 |].
    intro p. cbn [hex.DecodeString].
    destruct (hex.fromHexChar p); [| right; reflexivity].
    destruct (hex.fromHexChar q); [| right; reflexivity].
    destruct (hex.DecodeString rest); exact IH0.
Qed.

Lemma hexutil_Decode_error (input : string) :
  snd (hexutil.Decode input) = None
  \/ snd (hexutil.Decode input) = Some MalformedEnvelope.
Proof.
  unfold hexutil.Decode.
  destruct input as [| c0 [| c1 digits]]; try (right; reflexivity).
  destruct (negb (hexutil.has0xPrefix (String c0 (String c1 digits))));
    [right; reflexivity | apply hex_DecodeString_error].
Qed.

(** ** The server facade *)

(** When its first four texts decode, the facade's append is the engine's
    append on the decoded blobs, whatever the fifth text decodes to. *)
Lemma AppendAncient_decoded {S : Type} (h : handler engineReply S) (s : S)
    (number : uint64) (hash header body receipts td : string) :
  snd (hexutil.Decode hash) = None ->
  snd (hexutil.Decode header) = None ->
  snd (hexutil.Decode body) = None ->
  snd (hexutil.Decode receipts) = None ->
  let c := freezer_AppendAncient number
             (fst (hexutil.Decode hash)) (fst (hexutil.Decode header))
             (fst (hexutil.Decode body)) (fst (hexutil.Decode receipts))
             (fst (hexutil.Decode td)) in
  run h (FreezerRemoteAPI.AppendAncient number hash header body receipts td) s
  = h c s
  /\ calls h
       (FreezerRemoteAPI.AppendAncient number hash header body receipts td) s
     = [existT engineReply c (fst (h c s))].
Proof.
  intros Hh Hd Hb Hr c. subst c.
  unfold FreezerRemoteAPI.AppendAncient.
  destruct (hexutil.Decode hash) as [bHash e1]; cbn in Hh; subst e1.
  destruct (hexutil.Decode header) as [bHeader e2]; cbn in Hd; subst e2.
  destruct (hexutil.Decode body) as [bBody e3]; cbn in Hb; subst e3.
  destruct (hexutil.Decode receipts) as [bReceipts e4]; cbn in Hr; subst e4.
  destruct (hexutil.Decode td) as [bTd e5]; cbn [fst].
  set (c := freezer_AppendAncient number bHash bHeader bBody bReceipts bTd).
  split; [exact (run_invoke h c s) | exact (calls_invoke h c s)].
Qed.

(** A malformed text among the first four is answered with the decode
    error, before the engine is reached. *)
Lemma AppendAncient_rejects {S : Type} (h : handler engineReply S) (s : S)
    (number : uint64) (hash header body receipts td : string) :
  snd (hexutil.Decode hash) <> None
  \/ snd (hexutil.Decode header) <> None
  \/ snd (hexutil.Decode body) <> None
  \/ snd (hexutil.Decode receipts) <> None ->
  run h (FreezerRemoteAPI.AppendAncient number hash header body receipts td) s
  = (Some MalformedEnvelope, s)
  /\ calls h
       (FreezerRemoteAPI.AppendAncient number hash header body receipts td) s
     = [].
Proof.
  intro Hbad.
  unfold FreezerRemoteAPI.AppendAncient, calls.
  destruct (hexutil_Decode_error hash) as [E1 | E1];
    destruct (hexutil.Decode hash) as [bHash e1]; cbn in E1; subst e1;
    [| split; reflexivity].
  destruct (hexutil_Decode_error header) as [E2 | E2];
    destruct (hexutil.Decode header) as [bHeader e2]; cbn in E2; subst e2;
    [| split; reflexivity].
  destruct (hexutil_Decode_error body) as [E3 | E3];
    destruct (hexutil.Decode body) as [bBody e3]; cbn in E3; subst e3;
    [| split; reflexivity].
  destruct (hexutil_Decode_error receipts) as [E4 | E4];
    destruct (hexutil.Decode receipts) as [bReceipts e4]; cbn in E4; subst e4;
    [| split; reflexivity].
  cbn in Hbad. destruct Hbad as [H | [H | [H | H]]]; contradiction H; reflexivity.
Qed.

(** C2: at a malformed [td] the facade does not stop.  With number 0, the
    four well-formed texts 0x01 to 0x04 and the text zz for [td] on the
    empty store, [td] fails to decode, yet the engine's append is invoked
    (with no bytes for [td]), the call succeeds and the frozen count goes
    from 0 to 1. *)
Theorem AppendAncient_malformed_td_reaches_engine :
  snd (hexutil.Decode "zz") = Some MalformedEnvelope
  /\ run Engine.handle
       (FreezerRemoteAPI.AppendAncient 0 "0x01" "0x02" "0x03" "0x04" "zz")
       Engine.empty
     = (None, Engine.mkStore 1 [[x01]] [[x02]] [[x03]] [[x04]] [[]])
  /\ calls Engine.handle
       (FreezerRemoteAPI.AppendAncient 0 "0x01" "0x02" "0x03" "0x04" "zz")
       Engine.empty
     = [existT engineReply
          (freezer_AppendAncient 0 [x01] [x02] [x03] [x04] []) None].
Proof.
  repeat split.
Qed.

(** C4: when the engine's [Ancient] answers with an error, the facade
    returns the text 0x, which is the encoding of the empty blob, together
    with that error; when it answers without one, the facade returns the
    encoding of the engine's blob. *)
Theorem Ancient_failure_placeholder {S : Type} (h : handler engineReply S)
    (s s' : S) (kind : string) (number : uint64) (blob : bytes) (err : error) :
  h (freezer_Ancient kind number) s = ((blob, err), s') ->
  run h (FreezerRemoteAPI.Ancient kind number) s
  = (match err with
     | Some e => ("0x", Some e)
     | None => (hexutil.Encode blob, None)
     end, s')
  /\ hexutil.Encode [] = "0x".
Proof.
  intro Hengine. split; [| reflexivity].
  unfold FreezerRemoteAPI.Ancient. cbn. rewrite Hengine.
  destruct err; reflexivity.
Qed.

Lemma Ancient_failure_placeholder_witness :
  run Engine.handle (FreezerRemoteAPI.Ancient "hash" 0) Engine.empty
  = (("0x", Some NotFound), Engine.empty)
  /\ run Engine.handle (FreezerRemoteAPI.Ancient "hash" 0) store1
     = (("0x01", None), store1).
Proof.
  split.
  - exact (proj1 (Ancient_failure_placeholder Engine.handle
                    Engine.empty Engine.empty "hash" 0 [] (Some NotFound)
                    eq_refl)).
  - exact (proj1 (Ancient_failure_placeholder Engine.handle
                    store1 store1 "hash" 0 [x01] None eq_refl)).
Defined.

(** C5: whenever the engine operation behind a facade operation answers
    with an error [e], the facade operation returns exactly [e]; this holds
    for Close, HasAncient, Ancient, Ancients, AncientSize, TruncateAncients
    and Sync on every engine and state, and for AppendAncient on the blobs
    its texts decode to, once the four checked texts decode. *)
Theorem facade_propagates_engine_errors {S : Type} (h : handler engineReply S)
    (s : S) (e : Err) :
  (fst (h freezer_Close s) = Some e ->
   fst (run h FreezerRemoteAPI.Close s) = Some e)
  /\ (forall kind number,
        snd (fst (h (freezer_HasAncient kind number) s)) = Some e ->
        snd (fst (run h (FreezerRemoteAPI.HasAncient kind number) s)) = Some e)
  /\ (forall kind number,
        snd (fst (h (freezer_Ancient kind number) s)) = Some e ->
        snd (fst (run h (FreezerRemoteAPI.Ancient kind number) s)) = Some e)
  /\ (snd (fst (h freezer_Ancients s)) = Some e ->
      snd (fst (run h FreezerRemoteAPI.Ancients s)) = Some e)
  /\ (forall kind,
        snd (fst (h (freezer_AncientSize kind) s)) = Some e ->
        snd (fst (run h (FreezerRemoteAPI.AncientSize kind) s)) = Some e)
  /\ (forall number hash header body receipts td,
        snd (hexutil.Decode hash) = None ->
        snd (hexutil.Decode header) = None ->
        snd (hexutil.Decode body) = None ->
        snd (hexutil.Decode receipts) = None ->
        fst (h (freezer_AppendAncient number
                  (fst (hexutil.Decode hash)) (fst (hexutil.Decode header))
                  (fst (hexutil.Decode body)) (fst (hexutil.Decode receipts))
                  (fst (hexutil.Decode td))) s) = Some e ->
        fst (run h (FreezerRemoteAPI.AppendAncient number hash header body
                      receipts td) s) = Some e)
  /\ (forall items,
        fst (h (freezer_TruncateAncients items) s) = Some e ->
        fst (run h (FreezerRemoteAPI.TruncateAncients items) s) = Some e)
  /\ (fst (h freezer_Sync s) = Some e ->
      fst (run h FreezerRemoteAPI.Sync s) = Some e).
Proof.
  repeat match goal with |- _ /\ _ => split end.
  - intro He.
    exact (eq_trans (f_equal fst (run_invoke h freezer_Close s)) He).
  - intros kind number He.
    exact (eq_trans
             (f_equal (fun r => snd (fst r))
                (run_invoke h (freezer_HasAncient kind number) s)) He).
  - intros kind number. unfold FreezerRemoteAPI.Ancient. cbn.
    destruct (h (freezer_Ancient kind number) s) as [[blob [e0 |]] s1]; cbn;
      intro He; [exact He | discriminate He].
  - unfold FreezerRemoteAPI.Ancients. cbn.
    destruct (h freezer_Ancients s) as [[n [e0 |]] s1]; cbn;
      intro He; [exact He | discriminate He].
  - intro kind. unfold FreezerRemoteAPI.AncientSize. cbn.
    destruct (h (freezer_AncientSize kind) s) as [[n [e0 |]] s1]; cbn;
      intro He; [exact He | discriminate He].
  - intros number hash header body receipts td Hh Hd Hb Hr He.
    destruct (AppendAncient_decoded h s number hash header body receipts td
                Hh Hd Hb Hr) as [Hrun _].
    rewrite Hrun. exact He.
  - intros items He.
    exact (eq_trans
             (f_equal fst (run_invoke h (freezer_TruncateAncients items) s))
             He).
  - intro He.
    exact (eq_trans (f_equal fst (run_invoke h freezer_Sync s)) He).
Qed.

Lemma facade_propagates_engine_errors_witness :
  fst (run (Engine.broken (EngineError "disk")) FreezerRemoteAPI.Sync tt)
  = Some (EngineError "disk")
  /\ fst (run Engine.handle
            (FreezerRemoteAPI.AppendAncient 5 "0x01" "0x02" "0x03" "0x04"
               "0x05") store1)
     = Some OutOfOrderAppend
  /\ fst (run Engine.handle (FreezerRemoteAPI.TruncateAncients 2) store1)
     = Some InvalidTruncateTarget.
Proof.
  split; [| split].
  - exact (proj2 (proj2 (proj2 (proj2 (proj2 (proj2 (proj2
      (facade_propagates_engine_errors (Engine.broken (EngineError "disk")) tt
         (EngineError "disk")))))))) eq_refl).
  - exact (proj1 (proj2 (proj2 (proj2 (proj2 (proj2
      (facade_propagates_engine_errors Engine.handle store1
         OutOfOrderAppend))))))
      5 "0x01" "0x02" "0x03" "0x04" "0x05"
      eq_refl eq_refl eq_refl eq_refl eq_refl).
  - exact (proj1 (proj2 (proj2 (proj2 (proj2 (proj2 (proj2
      (facade_propagates_engine_errors Engine.handle store1
         InvalidTruncateTarget)))))))
      2 eq_refl).
Defined.

(** The reference engine's [Close] succeeds, marks the store closed, keeps
    the frozen count and the records, and is idempotent. *)
Lemma Engine_Close_idempotent (st : Engine.AncientStore) :
  fst (Engine.Close st) = None
  /\ Engine.closed (snd (Engine.Close st)) = true
  /\ Engine.frozen (snd (Engine.Close st)) = Engine.frozen st
  /\ (forall kind,
        Engine.table (snd (Engine.Close st)) kind = Engine.table st kind)
  /\ Engine.Close (snd (Engine.Close st)) = Engine.Close st.
Proof.
  repeat split.
Qed.

(** C7: [repair] returns no error, calls nothing on the engine and leaves
    the engine's state as it was, for every engine; on the reference store
    the frozen count and the records of every category are unchanged. *)
Theorem repair_is_noop :
  (forall (S : Type) (h : handler engineReply S) (s : S),
      run h FreezerRemoteAPI.repair s = (None, s)
      /\ calls h FreezerRemoteAPI.repair s = [])
  /\ (forall st : Engine.AncientStore,
        let st' := snd (run Engine.handle FreezerRemoteAPI.repair st) in
        fst (run Engine.handle FreezerRemoteAPI.repair st) = None
        /\ st'.(Engine.frozen) = st.(Engine.frozen)
        /\ forall kind, Engine.table st' kind = Engine.table st kind).
Proof.
  split.
  - intros S h s. split; reflexivity.
  - intro st. cbn. repeat split.
Qed.

(** ** The remote client *)

(** C10: the client's append makes exactly one transport call, the
    [freezer_appendAncient] request carrying the number and the five
    encoded blobs, and returns exactly the error of that round trip; every
    transmitted argument is well formed, and every byte sequence encodes to
    a text with the 0x prefix that decodes back to it without error. *)
Theorem AppendAncient_encoding_total {S : Type} (h : handler rpcReply S)
    (s : S) (api : FreezerRemoteClient.t) (number : uint64)
    (hash header body receipts td : bytes) :
  let request :=
    rpc_Call api.(FreezerRemoteClient.client) ResNil "freezer_appendAncient"
      [ArgUint64 number; ArgString (hexutil.Encode hash);
       ArgString (hexutil.Encode header); ArgString (hexutil.Encode body);
       ArgString (hexutil.Encode receipts); ArgString (hexutil.Encode td)] in
  let p := FreezerRemoteClient.AppendAncient api number hash header body
             receipts td in
  calls h p s = [existT rpcReply request (fst (h request s))]
  /\ run h p s = (snd (fst (h request s)), snd (h request s))
  /\ (forall x, In x (calls h p s) ->
        forallb wellFormedArg (transmitted x) = true)
  /\ (forall b : bytes,
        hexutil.has0xPrefix (hexutil.Encode b) = true
        /\ hexutil.Decode (hexutil.Encode b) = (b, None)).
Proof.
  intros request p.
  assert (Hcalls : calls h p s = [existT rpcReply request (fst (h request s))]).
  { unfold p, FreezerRemoteClient.AppendAncient, calls. cbn.
    fold request. destruct (h request s) as [[u err] s1]. reflexivity. }
  split; [exact Hcalls |]. split; [| split].
  - unfold p, FreezerRemoteClient.AppendAncient. cbn.
    fold request. destruct (h request s) as [[u err] s1]. reflexivity.
  - intros x Hin. rewrite Hcalls in Hin. destruct Hin as [<- | []].
    unfold transmitted, request. cbn [projT1 forallb].
    rewrite !wellFormedArg_Encode. reflexivity.
  - intro b. split;
      [apply hexutil_has0xPrefix_Encode | apply hexutil_Decode_Encode].
Qed.

(** What the lossless transport does with the client's append request. *)
Lemma loopback_appendAncient (st : Engine.AncientStore) (c : rpcClient)
    (number : uint64) (hash header body receipts td : bytes) :
  Transport.loopback
    (rpc_Call c ResNil "freezer_appendAncient"
       [ArgUint64 number; ArgString (hexutil.Encode hash);
        ArgString (hexutil.Encode header); ArgString (hexutil.Encode body);
        ArgString (hexutil.Encode receipts); ArgString (hexutil.Encode td)])
    (Transport.mkLink true st)
  = ((tt, fst (Engine.AppendAncient number hash header body receipts td st)),
     Transport.mkLink true
       (snd (Engine.AppendAncient number hash header body receipts td st))).
Proof.
  cbn [Transport.loopback Transport.connected Transport.store].
  change (Transport.serve "freezer_appendAncient" _)
    with (err <- FreezerRemoteAPI.AppendAncient number (hexutil.Encode hash)
                   (hexutil.Encode header) (hexutil.Encode body)
                   (hexutil.Encode receipts) (hexutil.Encode td) ;;
          Return (Transport.WNull, err)).
  rewrite run_bind.
  destruct (AppendAncient_decoded Engine.handle st number
              (hexutil.Encode hash) (hexutil.Encode header)
              (hexutil.Encode body) (hexutil.Encode receipts)
              (hexutil.Encode td)) as [Hrun _];
    try (rewrite hexutil_Decode_Encode; reflexivity).
  rewrite Hrun, !hexutil_Decode_Encode. cbn [fst snd Engine.handle run].
  destruct (Engine.AppendAncient number hash header body receipts td st)
    as [[e |] st']; reflexivity.
Qed.

(** C1: an append reaches the store unchanged through the client, a
    lossless transport and the facade, and on the store it either carries
    the frozen count as its number, succeeds and raises the frozen count by
    one, or carries another number, fails with OutOfOrderAppend and leaves
    the frozen count as it was. *)
Theorem AppendAncient_ordering (st : Engine.AncientStore)
    (api : FreezerRemoteClient.t) (number : uint64)
    (hash header body receipts td : bytes) :
  let direct :=
    Engine.handle (freezer_AppendAncient number hash header body receipts td)
      st in
  let remote :=
    run Transport.loopback
      (FreezerRemoteClient.AppendAncient api number hash header body receipts
         td) (Transport.mkLink true st) in
  remote = (fst direct, Transport.mkLink true (snd direct))
  /\ ((number = st.(Engine.frozen)
       /\ fst direct = None
       /\ (snd direct).(Engine.frozen) = st.(Engine.frozen) + 1)
      \/ (number <> st.(Engine.frozen)
          /\ fst direct = Some OutOfOrderAppend
          /\ (snd direct).(Engine.frozen) = st.(Engine.frozen))).
Proof.
  intros direct remote. split.
  - unfold remote, FreezerRemoteClient.AppendAncient.
    cbn [bind invoke run]. rewrite loopback_appendAncient. reflexivity.
  - unfold direct. cbn [Engine.handle]. unfold Engine.AppendAncient.
    destruct (N.eqb_spec number st.(Engine.frozen)) as [Heq | Hneq].
    + left. repeat split. exact Heq.
    + right. repeat split. exact Hneq.
Qed.

(** C9: [pingVersion] returns the text version 1 and no error and makes no
    transport call, against every transport; construction makes the dial
    and nothing else, fails with the dial's error exactly when the dial
    fails, and otherwise returns a client whose status is
    ok [version=version 1]. *)
Theorem pingVersion_constant :
  (forall (S : Type) (h : handler rpcReply S) (s : S)
          (api : FreezerRemoteClient.t),
      run h (FreezerRemoteClient.pingVersion api) s = (("version 1", None), s)
      /\ calls h (FreezerRemoteClient.pingVersion api) s = [])
  /\ (forall (S : Type) (h : handler rpcReply S) (s : S)
             (endpoint : string) (ipc : bool),
        let dial := h (rpc_Dial endpoint) s in
        let p := FreezerRemoteClient.newFreezerRemoteClient endpoint ipc in
        run h p s
        = (match snd (fst dial) with
           | Some e => (None, Some e)
           | None =>
               (Some (FreezerRemoteClient.mk (fst (fst dial))
                        "ok [version=version 1]"), None)
           end, snd dial)
        /\ calls h p s = [existT rpcReply (rpc_Dial endpoint) (fst dial)]
        /\ (snd (fst (run h p s)) = None <-> snd (fst dial) = None)).
Proof.
  split.
  - intros S h s api. split; reflexivity.
  - intros S h s endpoint ipc dial p.
    unfold p, dial, calls, FreezerRemoteClient.newFreezerRemoteClient.
    cbn. destruct (h (rpc_Dial endpoint) s) as [[c [e |]] s1]; cbn.
    + repeat split; intro H; discriminate H.
    + repeat split.
Qed.

(** C6: construction against an endpoint that accepts the dial and answers
    no request.  The only transport call made is the dial: no version probe
    is sent, construction succeeds with the status ok [version=version 1],
    and the first real request on the new client fails. *)
Theorem newFreezerRemoteClient_sends_no_probe :
  run (logging Transport.unreachable)
    (FreezerRemoteClient.newFreezerRemoteClient "http://127.0.0.1:8545" false)
    (tt, [])
  = ((Some (FreezerRemoteClient.mk 0 "ok [version=version 1]"), None),
     (tt, [existT rpcReply (rpc_Dial "http://127.0.0.1:8545") (0, None)]))
  /\ existsb isCall
       (calls Transport.unreachable
          (FreezerRemoteClient.newFreezerRemoteClient "http://127.0.0.1:8545"
             false) tt) = false
  /\ run Transport.unreachable (FreezerRemoteClient.Ancients api0) tt
     = ((0, Some (TransportError "connection refused")), tt).
Proof.
  repeat split.
Qed.

(** C8, as stated, fails.  On the lossless transport a [Close] leaves the
    connection open: no transport close is issued, the link is still
    connected and the transport does not refuse the next request.  Against
    a server that stops when its freezer is closed, a second [Close] does
    not return what the first returned. *)
Lemma Close_keeps_transport_open :
  existsb isTransportClose
    (calls Transport.loopback (FreezerRemoteClient.Close api0) link0) = false
  /\ Transport.connected
       (snd (run Transport.loopback (FreezerRemoteClient.Close api0) link0))
     = true
  /\ snd (fst (run Transport.loopback
                 (_ <- FreezerRemoteClient.Close api0 ;;
                  FreezerRemoteClient.Ancients api0) link0))
     <> Some (TransportError "client is closed")
  /\ fst (run Transport.stopping (FreezerRemoteClient.Close api0) true)
     <> fst (run Transport.stopping
               (_ <- FreezerRemoteClient.Close api0 ;;
                FreezerRemoteClient.Close api0) true).
Proof.
  repeat split; cbn; discriminate.
Qed.

(** C8, amended: [Close] makes exactly one transport call, the
    [freezer_close] request on the client's connection, and returns the
    error of that round trip; it issues no transport close.  A second
    [Close] sends the same request once more and returns the error of that
    second round trip.  This holds against every transport. *)
Theorem Close_forwards_freezer_close (S : Type) (h : handler rpcReply S)
    (s : S) (api : FreezerRemoteClient.t) :
  let request :=
    rpc_Call api.(FreezerRemoteClient.client) ResNil "freezer_close" [] in
  let first := h request s in
  let second := h request (snd first) in
  let twice :=
    _ <- FreezerRemoteClient.Close api ;; FreezerRemoteClient.Close api in
  run h (FreezerRemoteClient.Close api) s = (snd (fst first), snd first)
  /\ calls h (FreezerRemoteClient.Close api) s
     = [existT rpcReply request (fst first)]
  /\ existsb isTransportClose (calls h (FreezerRemoteClient.Close api) s)
     = false
  /\ run h twice s = (snd (fst second), snd second)
  /\ calls h twice s
     = [existT rpcReply request (fst first);
        existT rpcReply request (fst second)].
Proof.
  intros request first second twice.
  unfold twice, second, first, calls, FreezerRemoteClient.Close.
  cbn. fold request.
  destruct (h request s) as [[u1 err1] s1]. cbn.
  destruct (h request s1) as [[u2 err2] s2]. cbn.
  repeat split.
Qed.

(** A blob read through the client, the lossless transport and the facade
    is the blob the store holds: the facade's encoding and the client's
    decoding cancel, and a failed read comes back as the store's error. *)
Lemma Ancient_end_to_end (st : Engine.AncientStore)
    (api : FreezerRemoteClient.t) (kind : string) (number : uint64) :
  run Transport.loopback (FreezerRemoteClient.Ancient api kind number)
    (Transport.mkLink true st)
  = (Engine.Ancient kind number st, Transport.mkLink true st).
Proof.
  unfold FreezerRemoteClient.Ancient. cbn.
  assert (Hfail : forall blob e,
             Engine.Ancient kind number st = (blob, Some e) -> blob = []).
  { unfold Engine.Ancient. intros blob e.
    destruct (N.leb (Engine.frozen st) number); [congruence |].
    destruct (Engine.table st kind) as [blobs |]; [| congruence].
    destruct (nth_error blobs (N.to_nat number)); congruence. }
  destruct (Engine.Ancient kind number st) as [blob [e |]] eqn:Hread; cbn.
  - rewrite (Hfail blob e eq_refl). reflexivity.
  - rewrite hex_DecodeString_Encode. reflexivity.
Qed.

(** ** Scenarios of the protocol *)

Example scenario_append_then_read :
  run Transport.loopback
    (_ <- FreezerRemoteClient.AppendAncient api0 0 [x01] [x02] [x03] [x04]
            [x05] ;;
     n <- FreezerRemoteClient.Ancients api0 ;;
     blob <- FreezerRemoteClient.Ancient api0 "hash" 0 ;;
     has <- FreezerRemoteClient.HasAncient api0 "hash" 1 ;;
     Return (n, blob, has)) link0
  = (((1, None), ([x01], None), (false, None)), Transport.mkLink true store1).
Proof. reflexivity. Qed.

Example scenario_out_of_order_rejected :
  run Transport.loopback
    (err <- FreezerRemoteClient.AppendAncient api0 5 [x01] [x02] [x03] [x04]
              [x05] ;;
     n <- FreezerRemoteClient.Ancients api0 ;;
     Return (err, n)) (Transport.mkLink true store1)
  = ((Some OutOfOrderAppend, (1, None)), Transport.mkLink true store1).
Proof. reflexivity. Qed.

Example scenario_malformed_header :
  run Engine.handle
    (FreezerRemoteAPI.AppendAncient 0 "0x01" "header" "0x03" "0x04" "0x05")
    Engine.empty
  = (Some MalformedEnvelope, Engine.empty).
Proof. reflexivity. Qed.

Example scenario_dial_refused :
  run Transport.refused
    (FreezerRemoteClient.newFreezerRemoteClient "ws://127.0.0.1:8546" false) tt
  = ((None, Some (TransportError "dial failed")), tt).
Proof. reflexivity. Qed.

Example scenario_truncate_to_zero :
  run Transport.loopback
    (_ <- FreezerRemoteClient.AppendAncient api0 0 [x01] [x02] [x03] [x04]
            [x05] ;;
     _ <- FreezerRemoteClient.AppendAncient api0 1 [x11] [x12] [x13] [x14]
            [x15] ;;
     _ <- FreezerRemoteClient.AppendAncient api0 2 [x21] [x22] [x23] [x24]
            [x25] ;;
     before <- FreezerRemoteClient.Ancients api0 ;;
     size <- FreezerRemoteClient.AncientSize api0 "body" ;;
     err <- FreezerRemoteClient.TruncateAncients api0 0 ;;
     after <- FreezerRemoteClient.Ancients api0 ;;
     blob <- FreezerRemoteClient.Ancient api0 "hash" 0 ;;
     Return (before, size, err, after, blob)) link0
  = (((3, None), (3, None), None, (0, None), ([], Some NotFound)), link0).
Proof. reflexivity. Qed.

Example scenario_truncate_beyond_frozen :
  run Transport.loopback (FreezerRemoteClient.TruncateAncients api0 2)
    (Transport.mkLink true store1)
  = (Some InvalidTruncateTarget, Transport.mkLink true store1).
Proof. reflexivity. Qed.

(** * Further properties of the two files *)

(** ** The facade on its own *)

(** X1: a malformed text for [hash], [header], [body] or [receipts] makes
    the facade's append fail with the decode error before the engine is
    reached: no engine call is made and the engine's state is unchanged,
    for every engine, number and [td]. *)
Theorem AppendAncient_fails_fast {S : Type} (h : handler engineReply S)
    (s : S) (number : uint64) (hash header body receipts td : string) :
  snd (hexutil.Decode hash) <> None
  \/ snd (hexutil.Decode header) <> None
  \/ snd (hexutil.Decode body) <> None
  \/ snd (hexutil.Decode receipts) <> None ->
  let p := FreezerRemoteAPI.AppendAncient number hash header body receipts td in
  fst (run h p s) = Some MalformedEnvelope
  /\ snd (run h p s) = s
  /\ calls h p s = [].
Proof.
  intros Hbad p.
  destruct (AppendAncient_rejects h s number hash header body receipts td Hbad)
    as [Hrun Hcalls].
  unfold p. rewrite Hrun. repeat split. exact Hcalls.
Qed.

Lemma AppendAncient_fails_fast_witness :
  let p := FreezerRemoteAPI.AppendAncient 1 "0x01" "0x02" "0x3" "0x04" "0x05" in
  fst (run Engine.handle p store1) = Some MalformedEnvelope
  /\ snd (run Engine.handle p store1) = store1
  /\ calls Engine.handle p store1 = [].
Proof.
  apply (AppendAncient_fails_fast Engine.handle store1 1
           "0x01" "0x02" "0x3" "0x04" "0x05").
  right. right. left. cbn. discriminate.
Defined.

(** X2: handed the encodings of five blobs, the facade's append makes
    exactly one engine call, the engine's append on those very blobs, and
    returns the engine's answer and state; it never rejects an encoded
    blob.  This holds for every engine. *)
Theorem AppendAncient_of_encoded {S : Type} (h : handler engineReply S)
    (s : S) (number : uint64) (hash header body receipts td : bytes) :
  let p := FreezerRemoteAPI.AppendAncient number (hexutil.Encode hash)
             (hexutil.Encode header) (hexutil.Encode body)
             (hexutil.Encode receipts) (hexutil.Encode td) in
  let c := freezer_AppendAncient number hash header body receipts td in
  run h p s = h c s
  /\ calls h p s = [existT engineReply c (fst (h c s))].
Proof.
  intros p c.
  destruct (AppendAncient_decoded h s number
              (hexutil.Encode hash) (hexutil.Encode header)
              (hexutil.Encode body) (hexutil.Encode receipts)
              (hexutil.Encode td)) as [Hrun Hcalls];
    try (rewrite hexutil_Decode_Encode; reflexivity).
  rewrite !hexutil_Decode_Encode in Hrun, Hcalls.
  split; [exact Hrun | exact Hcalls].
Qed.

(** X3: whatever the engine answers, the text returned by the facade's
    [Ancient] is a well-formed envelope: it carries the 0x prefix and
    decodes without error, to the engine's blob when the engine succeeded
    and to the empty blob when it failed. *)
Theorem Ancient_returns_wellformed_envelope {S : Type}
    (h : handler engineReply S) (s : S) (kind : string) (number : uint64) :
  let text := fst (fst (run h (FreezerRemoteAPI.Ancient kind number) s)) in
  let answer := fst (h (freezer_Ancient kind number) s) in
  hexutil.has0xPrefix text = true
  /\ hexutil.Decode text
     = (match snd answer with Some _ => [] | None => fst answer end, None).
Proof.
  intros text answer. unfold text, answer, FreezerRemoteAPI.Ancient.
  cbn [bind invoke run].
  destruct (h (freezer_Ancient kind number) s) as [[blob [e |]] s1];
    cbn [fst snd run].
  - split; reflexivity.
  - split; [apply hexutil_has0xPrefix_Encode | apply hexutil_Decode_Encode].
Qed.

(** X4: on an engine error [Ancients] and [AncientSize] return the number
    0 with the error, whatever number the engine returned beside it, while
    [HasAncient] returns the engine's answer as it is; without an error all
    three return the engine's value.  The engine's state is the one the
    engine left. *)
Theorem facade_values_on_engine_error {S : Type} (h : handler engineReply S)
    (s : S) (kind : string) (number : uint64) :
  let zeroed (r : uint64 * error) :=
    match snd r with Some e => (0, Some e) | None => (fst r, None) end in
  run h FreezerRemoteAPI.Ancients s
  = (zeroed (fst (h freezer_Ancients s)), snd (h freezer_Ancients s))
  /\ run h (FreezerRemoteAPI.AncientSize kind) s
     = (zeroed (fst (h (freezer_AncientSize kind) s)),
        snd (h (freezer_AncientSize kind) s))
  /\ run h (FreezerRemoteAPI.HasAncient kind number) s
     = h (freezer_HasAncient kind number) s.
Proof.
  intro zeroed. unfold zeroed. repeat split.
  - unfold FreezerRemoteAPI.Ancients. cbn [bind invoke run].
    destruct (h freezer_Ancients s) as [[n [e |]] s1]; reflexivity.
  - unfold FreezerRemoteAPI.AncientSize. cbn [bind invoke run].
    destruct (h (freezer_AncientSize kind) s) as [[n [e |]] s1]; reflexivity.
  - exact (run_invoke h (freezer_HasAncient kind number) s).
Qed.

(** Closes a goal about an operation that is one call: evaluates the
    program and splits the collaborator's answer [a]. *)
Ltac single_call a :=
  unfold calls; cbn;
  let r := fresh "r" in destruct a as [r ?]; try destruct r; reflexivity.

(** X5: every facade operation makes exactly one engine call, the engine
    method of its own name; the append makes that one call when its four
    checked texts decode and none when one of them does not.  No operation
    reaches another engine method: a read or an append never truncates or
    closes the store. *)
Theorem facade_one_engine_call_per_operation {S : Type}
    (h : handler engineReply S) (s : S) (kind : string) (number : uint64)
    (hash header body receipts td : string) :
  let methods {R : Type} (p : FreezerRemoteAPI.facade R) :=
    map engineMethod (calls h p s) in
  methods FreezerRemoteAPI.Close = ["Close"]
  /\ methods (FreezerRemoteAPI.HasAncient kind number) = ["HasAncient"]
  /\ methods (FreezerRemoteAPI.Ancient kind number) = ["Ancient"]
  /\ methods FreezerRemoteAPI.Ancients = ["Ancients"]
  /\ methods (FreezerRemoteAPI.AncientSize kind) = ["AncientSize"]
  /\ (snd (hexutil.Decode hash) = None ->
      snd (hexutil.Decode header) = None ->
      snd (hexutil.Decode body) = None ->
      snd (hexutil.Decode receipts) = None ->
      methods (FreezerRemoteAPI.AppendAncient number hash header body
                 receipts td) = ["AppendAncient"])
  /\ (snd (hexutil.Decode hash) <> None
      \/ snd (hexutil.Decode header) <> None
      \/ snd (hexutil.Decode body) <> None
      \/ snd (hexutil.Decode receipts) <> None ->
      methods (FreezerRemoteAPI.AppendAncient number hash header body
                 receipts td) = [])
  /\ methods (FreezerRemoteAPI.TruncateAncients number) = ["TruncateAncients"]
  /\ methods FreezerRemoteAPI.Sync = ["Sync"].
Proof.
  intro methods. unfold methods.
  repeat match goal with |- _ /\ _ => split end.
  - single_call (h freezer_Close s).
  - single_call (h (freezer_HasAncient kind number) s).
  - unfold FreezerRemoteAPI.Ancient, calls. cbn.
    destruct (h (freezer_Ancient kind number) s) as [[blob [e |]] s1];
      reflexivity.
  - unfold FreezerRemoteAPI.Ancients, calls. cbn.
    destruct (h freezer_Ancients s) as [[n [e |]] s1]; reflexivity.
  - unfold FreezerRemoteAPI.AncientSize, calls. cbn.
    destruct (h (freezer_AncientSize kind) s) as [[n [e |]] s1]; reflexivity.
  - intros Hh Hd Hb Hr.
    destruct (AppendAncient_decoded h s number hash header body receipts td
                Hh Hd Hb Hr) as [_ Hcalls].
    rewrite Hcalls. reflexivity.
  - intro Hbad.
    destruct (AppendAncient_rejects h s number hash header body receipts td
                Hbad) as [_ Hcalls].
    rewrite Hcalls. reflexivity.
  - single_call (h (freezer_TruncateAncients number) s).
  - single_call (h freezer_Sync s).
Qed.

Lemma facade_one_engine_call_per_operation_witness :
  map engineMethod
    (calls Engine.handle
       (FreezerRemoteAPI.AppendAncient 1 "0x01" "0x02" "0x03" "0x04" "0x05")
       store1) = ["AppendAncient"]
  /\ map engineMethod
       (calls Engine.handle
          (FreezerRemoteAPI.AppendAncient 1 "0x01" "0x02" "03" "0x04" "0x05")
          store1) = [].
Proof.
  split.
  - exact (proj1 (proj2 (proj2 (proj2 (proj2 (proj2
      (facade_one_engine_call_per_operation Engine.handle store1 "hash" 1
         "0x01" "0x02" "0x03" "0x04" "0x05"))))))
      eq_refl eq_refl eq_refl eq_refl).
  - refine (proj1 (proj2 (proj2 (proj2 (proj2 (proj2 (proj2
      (facade_one_engine_call_per_operation Engine.handle store1 "hash" 1
         "0x01" "0x02" "03" "0x04" "0x05"))))))) _).
    right. right. left. cbn. discriminate.
Defined.

(** ** The client on its own *)

(** X6: every operation of the client makes exactly one transport call, a
    request on the client's own connection under the wire name of the
    operation; it never dials, never closes the transport and never
    repeats a request, whatever the transport answers. *)
Theorem client_one_request_per_operation {S : Type} (h : handler rpcReply S)
    (s : S) (api : FreezerRemoteClient.t) (kind : string) (number : uint64)
    (hash header body receipts td : bytes) :
  let requests {R : Type} (p : FreezerRemoteClient.remote R) :=
    map requested (calls h p s) in
  let on (method : string) :=
    [Some (api.(FreezerRemoteClient.client), method)] in
  requests (FreezerRemoteClient.Close api) = on "freezer_close"
  /\ requests (FreezerRemoteClient.HasAncient api kind number)
     = on "freezer_hasAncient"
  /\ requests (FreezerRemoteClient.Ancient api kind number)
     = on "freezer_ancient"
  /\ requests (FreezerRemoteClient.Ancients api) = on "freezer_ancients"
  /\ requests (FreezerRemoteClient.AncientSize api kind)
     = on "freezer_ancientSize"
  /\ requests (FreezerRemoteClient.AppendAncient api number hash header body
                 receipts td) = on "freezer_appendAncient"
  /\ requests (FreezerRemoteClient.TruncateAncients api number)
     = on "freezer_truncateAncients"
  /\ requests (FreezerRemoteClient.Sync api) = on "freezer_sync".
Proof.
  intros requests on. unfold requests, on.
  repeat match goal with |- _ /\ _ => split end.
  - single_call
      (h (rpc_Call api.(FreezerRemoteClient.client) ResNil "freezer_close" [])
         s).
  - single_call
      (h (rpc_Call api.(FreezerRemoteClient.client) ResBool
            "freezer_hasAncient" [ArgString kind; ArgUint64 number]) s).
  - unfold calls. cbn.
    destruct (h (rpc_Call api.(FreezerRemoteClient.client) ResString
                   "freezer_ancient" [ArgString kind; ArgUint64 number]) s)
      as [[res [e |]] s1]; reflexivity.
  - single_call
      (h (rpc_Call api.(FreezerRemoteClient.client) ResUint64
            "freezer_ancients" []) s).
  - single_call
      (h (rpc_Call api.(FreezerRemoteClient.client) ResUint64
            "freezer_ancientSize" [ArgString kind]) s).
  - single_call
      (h (rpc_Call api.(FreezerRemoteClient.client) ResNil
            "freezer_appendAncient"
            [ArgUint64 number; ArgString (hexutil.Encode hash);
             ArgString (hexutil.Encode header);
             ArgString (hexutil.Encode body);
             ArgString (hexutil.Encode receipts);
             ArgString (hexutil.Encode td)]) s).
  - single_call
      (h (rpc_Call api.(FreezerRemoteClient.client) ResNil
            "freezer_truncateAncients" [ArgUint64 number]) s).
  - single_call
      (h (rpc_Call api.(FreezerRemoteClient.client) ResNil "freezer_sync" [])
         s).
Qed.

(** Splits the transport's answer [a] to the one request of a client
    operation and uses the error [He] it answered with. *)
Ltac surfaced a He :=
  cbn; cbn in He; destruct a as [[? ?] ?]; cbn in He |- *;
  subst; reflexivity.

(** X7: when the transport answers a client operation's request with an
    error [e], the operation returns exactly [e]; [Ancient] then returns no
    bytes and decodes nothing.  This holds for all eight operations and
    every transport. *)
Theorem client_surfaces_transport_errors {S : Type} (h : handler rpcReply S)
    (s : S) (api : FreezerRemoteClient.t) (e : Err) :
  let c := api.(FreezerRemoteClient.client) in
  (snd (fst (h (rpc_Call c ResNil "freezer_close" []) s)) = Some e ->
   fst (run h (FreezerRemoteClient.Close api) s) = Some e)
  /\ (forall kind number,
        snd (fst (h (rpc_Call c ResBool "freezer_hasAncient"
                       [ArgString kind; ArgUint64 number]) s)) = Some e ->
        snd (fst (run h (FreezerRemoteClient.HasAncient api kind number) s))
        = Some e)
  /\ (forall kind number,
        snd (fst (h (rpc_Call c ResString "freezer_ancient"
                       [ArgString kind; ArgUint64 number]) s)) = Some e ->
        fst (run h (FreezerRemoteClient.Ancient api kind number) s)
        = ([], Some e))
  /\ (snd (fst (h (rpc_Call c ResUint64 "freezer_ancients" []) s)) = Some e ->
      snd (fst (run h (FreezerRemoteClient.Ancients api) s)) = Some e)
  /\ (forall kind,
        snd (fst (h (rpc_Call c ResUint64 "freezer_ancientSize"
                       [ArgString kind]) s)) = Some e ->
        snd (fst (run h (FreezerRemoteClient.AncientSize api kind) s))
        = Some e)
  /\ (forall number hash header body receipts td,
        snd (fst (h (rpc_Call c ResNil "freezer_appendAncient"
                       [ArgUint64 number; ArgString (hexutil.Encode hash);
                        ArgString (hexutil.Encode header);
                        ArgString (hexutil.Encode body);
                        ArgString (hexutil.Encode receipts);
                        ArgString (hexutil.Encode td)]) s)) = Some e ->
        fst (run h (FreezerRemoteClient.AppendAncient api number hash header
                      body receipts td) s) = Some e)
  /\ (forall items,
        snd (fst (h (rpc_Call c ResNil "freezer_truncateAncients"
                       [ArgUint64 items]) s)) = Some e ->
        fst (run h (FreezerRemoteClient.TruncateAncients api items) s)
        = Some e)
  /\ (snd (fst (h (rpc_Call c ResNil "freezer_sync" []) s)) = Some e ->
      fst (run h (FreezerRemoteClient.Sync api) s) = Some e).
Proof.
  intro c. subst c.
  repeat match goal with |- _ /\ _ => split end.
  - intro He.
    surfaced
      (h (rpc_Call api.(FreezerRemoteClient.client) ResNil "freezer_close" [])
         s) He.
  - intros kind number He.
    surfaced
      (h (rpc_Call api.(FreezerRemoteClient.client) ResBool
            "freezer_hasAncient" [ArgString kind; ArgUint64 number]) s) He.
  - intros kind number He.
    surfaced
      (h (rpc_Call api.(FreezerRemoteClient.client) ResString
            "freezer_ancient" [ArgString kind; ArgUint64 number]) s) He.
  - intro He.
    surfaced
      (h (rpc_Call api.(FreezerRemoteClient.client) ResUint64
            "freezer_ancients" []) s) He.
  - intros kind He.
    surfaced
      (h (rpc_Call api.(FreezerRemoteClient.client) ResUint64
            "freezer_ancientSize" [ArgString kind]) s) He.
  - intros number hash header body receipts td He.
    surfaced
      (h (rpc_Call api.(FreezerRemoteClient.client) ResNil
            "freezer_appendAncient"
            [ArgUint64 number; ArgString (hexutil.Encode hash);
             ArgString (hexutil.Encode header);
             ArgString (hexutil.Encode body);
             ArgString (hexutil.Encode receipts);
             ArgString (hexutil.Encode td)]) s) He.
  - intros items He.
    surfaced
      (h (rpc_Call api.(FreezerRemoteClient.client) ResNil
            "freezer_truncateAncients" [ArgUint64 items]) s) He.
  - intro He.
    surfaced
      (h (rpc_Call api.(FreezerRemoteClient.client) ResNil "freezer_sync" [])
         s) He.
Qed.

Lemma client_surfaces_transport_errors_witness :
  fst (run Transport.unreachable (FreezerRemoteClient.Ancient api0 "hash" 0) tt)
  = ([], Some (TransportError "connection refused"))
  /\ fst (run Transport.unreachable (FreezerRemoteClient.Sync api0) tt)
     = Some (TransportError "connection refused").
Proof.
  split.
  - exact (proj1 (proj2 (proj2
      (client_surfaces_transport_errors Transport.unreachable tt api0
         (TransportError "connection refused")))) "hash" 0 eq_refl).
  - exact (proj2 (proj2 (proj2 (proj2 (proj2 (proj2 (proj2
      (client_surfaces_transport_errors Transport.unreachable tt api0
         (TransportError "connection refused")))))))) eq_refl).
Defined.

(** ** The client in front of the facade *)

(** What the lossless transport does with the client's append request, on
    any engine. *)
Lemma lossless_appendAncient {S : Type} (h : handler engineReply S) (s : S)
    (c : rpcClient) (number : uint64) (hash header body receipts td : bytes) :
  lossless h
    (rpc_Call c ResNil "freezer_appendAncient"
       [ArgUint64 number; ArgString (hexutil.Encode hash);
        ArgString (hexutil.Encode header); ArgString (hexutil.Encode body);
        ArgString (hexutil.Encode receipts); ArgString (hexutil.Encode td)]) s
  = ((tt, fst (h (freezer_AppendAncient number hash header body receipts td)
                 s)),
     snd (h (freezer_AppendAncient number hash header body receipts td) s)).
Proof.
  cbn [lossless].
  change (Transport.serve "freezer_appendAncient" _)
    with (err <- FreezerRemoteAPI.AppendAncient number (hexutil.Encode hash)
                   (hexutil.Encode header) (hexutil.Encode body)
                   (hexutil.Encode receipts) (hexutil.Encode td) ;;
          Return (Transport.WNull, err)).
  rewrite run_bind.
  destruct (AppendAncient_decoded h s number
              (hexutil.Encode hash) (hexutil.Encode header)
              (hexutil.Encode body) (hexutil.Encode receipts)
              (hexutil.Encode td)) as [Hrun _];
    try (rewrite hexutil_Decode_Encode; reflexivity).
  rewrite Hrun, !hexutil_Decode_Encode. cbn [fst snd run].
  destruct (h (freezer_AppendAncient number hash header body receipts td) s)
    as [[e |] s']; reflexivity.
Qed.

(** X8: over a lossless transport that serves each wire method by the
    facade operation of the same name, the client's append is the engine's
    append: for every engine and all blobs it returns the engine's error
    and leaves the engine's state, the engine having received exactly the
    blobs the caller passed. *)
Theorem remote_AppendAncient_is_engine_AppendAncient {S : Type}
    (h : handler engineReply S) (s : S) (api : FreezerRemoteClient.t)
    (number : uint64) (hash header body receipts td : bytes) :
  run (lossless h)
    (FreezerRemoteClient.AppendAncient api number hash header body receipts td)
    s
  = h (freezer_AppendAncient number hash header body receipts td) s.
Proof.
  unfold FreezerRemoteClient.AppendAncient. cbn [bind invoke run].
  rewrite lossless_appendAncient.
  destruct (h (freezer_AppendAncient number hash header body receipts td) s)
    as [err s']; reflexivity.
Qed.

(** X9: over the same transport the client's [Ancient] returns the blob
    the engine returned, byte for byte, when the engine succeeded, and no
    bytes with the engine's error when it failed; the facade's encoding and
    the client's decoding cancel for every engine and every blob. *)
Theorem remote_Ancient_is_engine_Ancient {S : Type}
    (h : handler engineReply S) (s : S) (api : FreezerRemoteClient.t)
    (kind : string) (number : uint64) :
  let answer := h (freezer_Ancient kind number) s in
  run (lossless h) (FreezerRemoteClient.Ancient api kind number) s
  = (match snd (fst answer) with
     | Some e => ([], Some e)
     | None => (fst (fst answer), None)
     end, snd answer).
Proof.
  intro answer. unfold answer, FreezerRemoteClient.Ancient. cbn.
  destruct (h (freezer_Ancient kind number) s) as [[blob [e |]] s1]; cbn.
  - reflexivity.
  - rewrite hex_DecodeString_Encode. reflexivity.
Qed.

(** X10: over the same transport [HasAncient], [Ancients] and
    [AncientSize] of the client return the engine's value when the engine
    succeeded; when it failed they return the engine's error with the zero
    value (false, 0), not the value the engine returned beside the error.
    The engine's state is the one the engine left. *)
Theorem remote_reads_are_engine_reads {S : Type} (h : handler engineReply S)
    (s : S) (api : FreezerRemoteClient.t) (kind : string) (number : uint64) :
  let surfaced {A : Type} (none : A) (r : A * error) :=
    match snd r with Some e => (none, Some e) | None => (fst r, None) end in
  run (lossless h) (FreezerRemoteClient.HasAncient api kind number) s
  = (surfaced false (fst (h (freezer_HasAncient kind number) s)),
     snd (h (freezer_HasAncient kind number) s))
  /\ run (lossless h) (FreezerRemoteClient.Ancients api) s
     = (surfaced 0 (fst (h freezer_Ancients s)), snd (h freezer_Ancients s))
  /\ run (lossless h) (FreezerRemoteClient.AncientSize api kind) s
     = (surfaced 0 (fst (h (freezer_AncientSize kind) s)),
        snd (h (freezer_AncientSize kind) s)).
Proof.
  intro surfaced. unfold surfaced.
  repeat match goal with |- _ /\ _ => split end.
  - unfold FreezerRemoteClient.HasAncient. cbn.
    destruct (h (freezer_HasAncient kind number) s) as [[b [e |]] s1];
      reflexivity.
  - unfold FreezerRemoteClient.Ancients. cbn.
    destruct (h freezer_Ancients s) as [[n [e |]] s1]; reflexivity.
  - unfold FreezerRemoteClient.AncientSize. cbn.
    destruct (h (freezer_AncientSize kind) s) as [[n [e |]] s1]; reflexivity.
Qed.

(** X11: over the same transport [TruncateAncients], [Sync] and [Close] of
    the client are the engine's operations of the same name: each returns
    the engine's error and leaves the engine's state, for every engine. *)
Theorem remote_commands_are_engine_commands {S : Type}
    (h : handler engineReply S) (s : S) (api : FreezerRemoteClient.t)
    (items : uint64) :
  run (lossless h) (FreezerRemoteClient.TruncateAncients api items) s
  = h (freezer_TruncateAncients items) s
  /\ run (lossless h) (FreezerRemoteClient.Sync api) s = h freezer_Sync s
  /\ run (lossless h) (FreezerRemoteClient.Close api) s = h freezer_Close s.
Proof.
  repeat match goal with |- _ /\ _ => split end.
  - unfold FreezerRemoteClient.TruncateAncients. cbn.
    destruct (h (freezer_TruncateAncients items) s) as [[e |] s1];
      reflexivity.
  - unfold FreezerRemoteClient.Sync. cbn.
    destruct (h freezer_Sync s) as [[e |] s1]; reflexivity.
  - unfold FreezerRemoteClient.Close. cbn.
    destruct (h freezer_Close s) as [[e |] s1]; reflexivity.
Qed.
